(** * Dietician & Recipe Builder API: a shallow embedding of the handlers

    The development follows [main.py] and [schemas.py]: the request
    models, the four route handlers ([signup], [login],
    [generate_diet_plan], [recipe_search]) and the pieces of the Python
    runtime they rely on (binary64 arithmetic, truthiness, [dict.get],
    slicing, exceptions). *)

From Stdlib Require Import ZArith Floats Ascii String List Bool Lia.
From stdpp Require Import gmap strings list fin_maps.

Local Open Scope string_scope.
Local Open Scope list_scope.

Set Warnings "-register-all".

(** ** Exceptions and results *)

(** The exceptions that the handlers can meet.  [HTTPException] is the
    one FastAPI turns into a response with the given status; every other
    exception that leaves a handler becomes a 500. *)
Inductive Exn : Type :=
| HTTPException (status_code : Z) (detail : string)
| ZeroDivisionError
| OverflowError
| ValidationError
| RequestException
| JSONDecodeError
| AttributeError
| TypeError
| DatabaseNotAvailable
| NotImplementedError.

Inductive Result (A : Type) : Type :=
| Ok (a : A)
| Raise (e : Exn).
Arguments Ok {A} a.
Arguments Raise {A} e.

Definition rbind {A B : Type} (k : A -> Result B) (r : Result A) : Result B :=
  match r with
  | Ok a => k a
  | Raise e => Raise e
  end.

(** [Result] is used through stdpp's monad notation [x ← c; k]. *)
#[global] Instance Result_ret : MRet Result := fun A a => Ok a.
#[global] Instance Result_bind : MBind Result := fun A B k r => rbind k r.

(** What FastAPI can render as the body of a response: JSON is written
    with [allow_nan=False], so a value that holds a NaN or an infinity
    cannot be rendered. *)
Class Renderable (A : Type) : Type := renders : A -> bool.

(** The status code a client sees for an outcome of a handler: a
    returned value that cannot be rendered ends in a 500 as well. *)
Definition http_status {A : Type} `{Renderable A} (r : Result A) : Z :=
  match r with
  | Ok a => if renders a then 200 else 500
  | Raise (HTTPException c _) => c
  | Raise _ => 500
  end.

(** ** JSON values, as [json] and [dict] give them to Python *)

Inductive JVal : Type :=
| JNull
| JBool (b : bool)
| JNum (z : Z)
| JFloat (f : float)
| JStr (s : string)
| JArr (l : list JVal)
| JObj (m : gmap string JVal).

Abbreviation Document := (gmap string JVal).

(** Python truthiness of a value: [None], [False], zero, the empty
    string, the empty list and the empty dict are false. *)
Definition truthy (v : JVal) : bool :=
  match v with
  | JNull => false
  | JBool b => b
  | JNum z => negb (z =? 0)%Z
  | JFloat f => negb (PrimFloat.eqb f 0%float)
  | JStr s => negb (String.eqb s "")
  | JArr l => match l with [] => false | _ => true end
  | JObj m => negb (bool_decide (m = ∅))
  end.

Definition finite_float (f : float) : bool :=
  negb (is_nan f) && negb (is_infinity f).

(** A value without NaN and infinities, at any depth. *)
Fixpoint json_compliant (v : JVal) : bool :=
  match v with
  | JFloat f => finite_float f
  | JArr l => forallb json_compliant l
  | JObj m => map_fold (fun _ x acc => json_compliant x && acc) true m
  | _ => true
  end.

#[global] Instance JVal_renderable : Renderable JVal := json_compliant.

(** A [str] is kept as its UTF-8 bytes.  A character starts at every
    byte that is not a continuation byte (10xxxxxx). *)
Definition is_continuation (c : ascii) : bool :=
  (128 <=? nat_of_ascii c)%nat && (nat_of_ascii c <? 192)%nat.

(** [len(s)]: the number of characters. *)
Fixpoint py_len (s : string) : nat :=
  match s with
  | EmptyString => 0
  | String c s' => if is_continuation c then py_len s' else S (py_len s')
  end.

(** [s[:n]]: the first [n] characters. *)
Fixpoint py_take (n : nat) (s : string) : string :=
  match s with
  | EmptyString => EmptyString
  | String c s' =>
      if is_continuation c then String c (py_take n s')
      else
        match n with
        | O => EmptyString
        | S n' => String c (py_take n' s')
        end
  end.

(** [v.get(key)]: only a dict has the method; a missing key gives [None]. *)
Definition py_get (v : JVal) (key : string) : Result JVal :=
  match v with
  | JObj m => Ok (default JNull (m !! key))
  | _ => Raise AttributeError
  end.

(** [a or b]. *)
Definition py_or (a b : JVal) : JVal := if truthy a then a else b.

Fixpoint chars (s : string) : list JVal :=
  match s with
  | EmptyString => []
  | String c s' => JStr (String c EmptyString) :: chars s'
  end.

(** The items visited by [for m in v[:n]]: a list gives its first [n]
    items, a string its first [n] characters, anything else cannot be
    sliced. *)
Definition py_slice_items (v : JVal) (n : nat) : Result (list JVal) :=
  match v with
  | JArr l => Ok (firstn n l)
  | JStr s => Ok (firstn n (chars s))
  | _ => Raise TypeError
  end.

(** [for x in xs: out.append(f(x))], stopping at the first exception. *)
Fixpoint for_append {A B : Type} (f : A -> Result B) (xs : list A) (out : list B)
  : Result (list B) :=
  match xs with
  | [] => Ok out
  | x :: xs' =>
      match f x with
      | Ok y => for_append f xs' (out ++ [y])
      | Raise e => Raise e
      end
  end.

(** ** binary64 arithmetic of Python's [float] *)

Module PyFloat.

(** [a / b] raises on a zero divisor and is the IEEE quotient otherwise. *)
Definition truediv (a b : float) : Result float :=
  if PrimFloat.eqb b 0%float then Raise ZeroDivisionError
  else Ok (a / b)%float.

(** The square computed by the C library's [pow(x, 2.0)] when it is
    correctly rounded. *)
Definition pow2_rn (x : float) : float := (x * x)%float.

(** [x ** 2]: NaN and the infinities are answered directly, a zero base
    gives [0.0], a base of absolute value one gives [1.0], and any other
    base goes, without its sign, to the C library, whose overflow is
    reported as [OverflowError] (an underflow to zero is not an error). *)
Definition pow2 (libm_pow2 : float -> float) (x : float) : Result float :=
  if is_nan x then Ok x
  else if is_infinity x then Ok PrimFloat.infinity
  else if is_zero x then Ok PrimFloat.zero
  else if PrimFloat.eqb (abs x) 1%float then Ok 1%float
  else
    let r := libm_pow2 (abs x) in
    if is_infinity r then Raise OverflowError else Ok r.

(** Nearest integer to [num / den], ties to even ([0 <= num], [0 < den]). *)
Definition half_even (num den : Z) : Z :=
  let q := (num / den)%Z in
  match (2 * (num mod den) ?= den)%Z with
  | Lt => q
  | Gt => (q + 1)%Z
  | Eq => if Z.even q then q else (q + 1)%Z
  end.

(** [round(x, 1)]: the exact binary value is rounded to one decimal
    place, ties to even, and the decimal result is converted back to
    the nearest float; NaN, infinities and zeros are returned as they
    are. *)
Definition round1 (x : float) : float :=
  match Prim2SF x with
  | S754_finite s m e =>
      let n := match e with
               | Zneg p => half_even (10 * Zpos m) (2 ^ Zpos p)
               | _ => (10 * Zpos m * 2 ^ e)%Z
               end in
      match n with
      | Zpos k =>
          SF2Prim (SFdiv prec emax (S754_finite s k 0) (S754_finite false 10 0))
      | _ => if s then PrimFloat.neg_zero else PrimFloat.zero
      end
  | _ => x
  end.

End PyFloat.

(** ** Request models of [schemas.py] *)

Inductive FoodType : Type :=
| Veg | NonVeg | Vegan | LactoseIntolerant | GlutenFree | Keto | Paleo | OtherFood.

Inductive Goal : Type :=
| LoseWeight | GainWeight | Maintain | PostSurgeryGuidance | ImprovePerformance | OtherGoal.

(** The string each literal stands for; the handlers compare strings. *)
Definition food_type_str (f : FoodType) : string :=
  match f with
  | Veg => "veg"
  | NonVeg => "non-veg"
  | Vegan => "vegan"
  | LactoseIntolerant => "lactose-intolerant"
  | GlutenFree => "gluten-free"
  | Keto => "keto"
  | Paleo => "paleo"
  | OtherFood => "other"
  end.

Definition goal_str (g : Goal) : string :=
  match g with
  | LoseWeight => "lose-weight"
  | GainWeight => "gain-weight"
  | Maintain => "maintain"
  | PostSurgeryGuidance => "post-surgery-guidance"
  | ImprovePerformance => "improve-performance"
  | OtherGoal => "other"
  end.

Record DietRequest : Type := {
  dr_name : string;
  age : Z;
  height_cm : float;
  weight_kg : float;
  health_issues : option string;
  medical_history : option string;
  food_type : FoodType;
  goal : Goal;
  extra_notes : option string
}.

(** The field constraints of [DietRequest]: [ge=1, le=120] on the age,
    [gt=0] on height and weight.  The two literals are enforced by the
    types. *)
Definition valid_DietRequest (info : DietRequest) : bool :=
  (1 <=? age info)%Z && (age info <=? 120)%Z
  && PrimFloat.ltb 0%float (height_cm info)
  && PrimFloat.ltb 0%float (weight_kg info).

(** ** /diet/plan *)

Record Meal : Type := { meal : string; ideas : list string }.

Record DietPlan : Type := {
  bmi : float;
  bmi_category : string;
  guidelines : list string;
  sample_day : list Meal
}.

#[global] Instance DietPlan_renderable : Renderable DietPlan :=
  fun p => finite_float (bmi p).

Definition legume_line : string :=
  "Prioritize legumes, tofu, nuts, seeds for protein.".
Definition lean_line : string :=
  "Lean proteins like chicken, fish, eggs; minimize fried foods.".
Definition lactose_line : string :=
  "Use lactose-free dairy or fortified plant milks.".
Definition lose_weight_lines : list string :=
  [ "Aim for a 300-500 kcal deficit.";
    "High-volume, low-calorie foods (salads, soups).";
    "30-40 minutes of brisk walking or cardio, 5x/week." ].
Definition gain_weight_lines : list string :=
  [ "300-400 kcal surplus with 1.6-2.2 g/kg protein.";
    "Strength training 3-4x/week.";
    "Add calorie-dense snacks (nut butters, trail mix)." ].
Definition post_surgery_lines : list string :=
  [ "Focus on soft, easily digestible foods as advised.";
    "Ensure adequate protein and vitamin C for healing.";
    "Hydrate well and follow medical guidance." ].
Definition balanced_line : string :=
  "Balanced plate: half veggies, quarter protein, quarter whole grains.".

(** The conditional expression that picks the category. *)
Definition category_of (b : float) : string :=
  if PrimFloat.ltb b 18.5%float then "underweight"
  else if PrimFloat.ltb b 25%float then "normal"
  else if PrimFloat.ltb b 30%float then "overweight"
  else "obese".

Definition str_in (s : string) (l : list string) : bool :=
  existsb (String.eqb s) l.

Section DietPlan.

(** The C library's [pow(x, 2.0)], which [float.__pow__] calls. *)
Variable libm_pow2 : float -> float.

(** [info.weight_kg / ((info.height_cm/100) ** 2)]. *)
Definition full_bmi (info : DietRequest) : Result float :=
  m ← PyFloat.truediv (height_cm info) 100%float;
  sq ← PyFloat.pow2 libm_pow2 m;
  PyFloat.truediv (weight_kg info) sq.

(** The list [guidelines] after the three food-type statements and the
    goal statement have run on it. *)
Definition build_guidelines (info : DietRequest) : list string :=
  let ft := food_type_str (food_type info) in
  let gl := goal_str (goal info) in
  let g0 : list string := [] in
  let g1 := if str_in ft ["veg"; "vegan"] then g0 ++ [legume_line] else g0 in
  let g2 := if String.eqb ft "non-veg" then g1 ++ [lean_line] else g1 in
  let g3 := if String.eqb ft "lactose-intolerant" then g2 ++ [lactose_line] else g2 in
  if String.eqb gl "lose-weight" then g3 ++ lose_weight_lines
  else if String.eqb gl "gain-weight" then g3 ++ gain_weight_lines
  else if String.eqb gl "post-surgery-guidance" then g3 ++ post_surgery_lines
  else g3 ++ [balanced_line].

Definition build_day_plan (info : DietRequest) : list Meal :=
  let ft := food_type_str (food_type info) in
  [ {| meal := "Breakfast";
       ideas := [ "Oatmeal with chia and berries";
                  if negb (String.eqb ft "vegan") then "Veggie omelette"
                  else "Tofu scramble";
                  "Smoothie with spinach, banana, and plant milk" ] |};
    {| meal := "Lunch";
       ideas := [ "Quinoa bowl with beans and veggies";
                  if String.eqb ft "non-veg" then "Grilled chicken salad"
                  else "Chickpea salad";
                  "Lentil soup with whole-grain toast" ] |};
    {| meal := "Dinner";
       ideas := [ "Stir-fry veggies with tofu/tempeh";
                  if String.eqb ft "non-veg" then "Baked fish with steamed veggies"
                  else "Rajma with brown rice";
                  "Vegetable khichdi or millet upma" ] |} ].

Definition generate_diet_plan (info : DietRequest) : Result DietPlan :=
  b ← full_bmi info;
  let category := category_of b in
  let guidelines := build_guidelines info in
  let day_plan := build_day_plan info in
  Ok {| bmi := PyFloat.round1 b;
        bmi_category := category;
        guidelines := guidelines;
        sample_day := day_plan |}.

End DietPlan.

(** ** The remaining request models *)

Record AuthPayload : Type := {
  ap_name : option string;
  ap_email : string;
  ap_password : string
}.

Record User : Type := {
  u_name : string;
  u_email : string;
  u_password : string
}.

(** [User(name=..., email=..., password=...)]: the password field has
    [min_length=4], counted in characters; the e-mail was already
    validated in the payload. *)
Definition User_new (name email password : string) : Result User :=
  if (4 <=? py_len password)%nat
  then Ok {| u_name := name; u_email := email; u_password := password |}
  else Raise ValidationError.

Inductive RecipeFoodType : Type :=
| RVeg | RNonVeg | RVegan | RLactoseIntolerant | RGlutenFree | RKeto | RPaleo | RAny.

Definition recipe_food_type_str (f : RecipeFoodType) : string :=
  match f with
  | RVeg => "veg"
  | RNonVeg => "non-veg"
  | RVegan => "vegan"
  | RLactoseIntolerant => "lactose-intolerant"
  | RGlutenFree => "gluten-free"
  | RKeto => "keto"
  | RPaleo => "paleo"
  | RAny => "any"
  end.

Record RecipeSearch : Type := {
  query : option string;
  ingredients : option (list string);
  rs_food_type : option RecipeFoodType;
  user_email : option string
}.

Definition of_opt_str (o : option string) : JVal :=
  match o with
  | Some s => JStr s
  | None => JNull
  end.

(** The record a model is stored as: one entry per field. *)
Definition User_doc (u : User) : Document :=
  <["name" := JStr (u_name u)]>
    (<["email" := JStr (u_email u)]>
       (<["password" := JStr (u_password u)]> ∅)).

Definition RecipeSearch_doc (r : RecipeSearch) : Document :=
  <["query" := of_opt_str (query r)]>
    (<["ingredients" :=
         match ingredients r with
         | Some l => JArr (map JStr l)
         | None => JNull
         end]>
       (<["food_type" := of_opt_str (recipe_food_type_str <$> rs_food_type r)]>
          (<["user_email" := of_opt_str (user_email r)]> ∅))).

(** ** The document store *)

(** Modelled from the spec: the module [database] ([db],
    [create_document]) is imported by [main.py] but is not among the
    sources.  The spec asks of the store only
    [insert(collection_name, record) -> id],
    [find(collection_name, filter) -> list] and
    [find_one(collection_name, filter) -> record|none]; a collection is
    kept as the list of its records in insertion order, and identifiers
    are drawn from a counter. *)
Record Store : Type := {
  collections : gmap string (list Document);
  next_id : N
}.

(** The module-level handle [db]: [None] when no store is configured. *)
Abbreviation Db := (option Store).

Definition coll (s : Store) (name : string) : list Document :=
  default [] (collections s !! name).

(** A filter [{k1: v1, ...}] of string values selects the records whose
    fields equal them exactly. *)
Definition field_is (doc : Document) (k v : string) : bool :=
  match doc !! k with
  | Some (JStr s) => String.eqb s v
  | _ => false
  end.

Definition matches (flt : list (string * string)) (doc : Document) : bool :=
  forallb (fun kv => field_is doc (fst kv) (snd kv)) flt.

Definition find (s : Store) (name : string) (flt : list (string * string))
  : list Document :=
  List.filter (matches flt) (coll s name).

Definition find_one (s : Store) (name : string) (flt : list (string * string))
  : option Document :=
  List.find (matches flt) (coll s name).

Definition insert_record (s : Store) (name : string) (doc : Document) : N * Store :=
  (next_id s,
   {| collections := <[name := coll s name ++ [doc]]> (collections s);
      next_id := N.succ (next_id s) |}).

(** Modelled from the spec: [create_document(collection_name, record)]
    inserts the record and returns its identifier; with no store
    configured the request ends in a 500 (the spec's ServiceUnavailable). *)
Definition create_document (db : Db) (name : string) (doc : Document)
  : Result N * Db :=
  match db with
  | None => (Raise DatabaseNotAvailable, db)
  | Some s => let '(i, s') := insert_record s name doc in (Ok i, Some s')
  end.

(** ** /auth/signup and /auth/login *)

(** [email.split("@")[0]]. *)
Fixpoint before_at (s : string) : string :=
  match s with
  | EmptyString => EmptyString
  | String c s' => if Ascii.eqb c "@"%char then EmptyString else String c (before_at s')
  end.

(** The truth test [if db] of the module-level handle.  [None] is
    false.  A configured handle is a database of the MongoDB driver
    ([schemas.py] speaks of MongoDB collections, and [find],
    [find_one], [list_collection_names] are its methods), which does
    not implement truth testing: [bool(db)] raises
    [NotImplementedError] and asks for a comparison with [None]. *)
Definition handle_bool (db : Db) : Result bool :=
  match db with
  | None => Ok false
  | Some _ => Raise NotImplementedError
  end.

Definition signup (db : Db) (payload : AuthPayload) : Result JVal * Db :=
  (* check if exists: [list(db["user"].find(...)) if db else []] *)
  match handle_bool db with
  | Raise e => (Raise e, db)
  | Ok truth =>
      let existing :=
        match db with
        | Some s => if truth then find s "user" [("email", ap_email payload)] else []
        | None => []
        end in
      match existing with
      | _ :: _ => (Raise (HTTPException 400 "User already exists"), db)
      | [] =>
          let name :=
            if truthy (of_opt_str (ap_name payload))
            then default EmptyString (ap_name payload)
            else before_at (ap_email payload) in
          match User_new name (ap_email payload) (ap_password payload) with
          | Raise e => (Raise e, db)
          | Ok user =>
              match create_document db "user" (User_doc user) with
              | (Ok user_id, db') =>
                  (Ok (JObj (<["ok" := JBool true]>
                               (<["user_id" := JNum (Z.of_N user_id)]> ∅))), db')
              | (Raise e, db') => (Raise e, db')
              end
          end
      end
  end.

Definition login (db : Db) (payload : AuthPayload) : Result JVal * Db :=
  match db with
  | None => (Raise (HTTPException 500 "Database not configured"), db)
  | Some s =>
      let user :=
        find_one s "user"
          [("email", ap_email payload); ("password", ap_password payload)] in
      (* [not user]: no record, or an empty one *)
      match user with
      | Some u =>
          if truthy (JObj u)
          then (Ok (JObj (<["ok" := JBool true]>
                            (<["email" := default JNull (u !! "email")]>
                               (<["name" := default JNull (u !! "name")]> ∅)))), db)
          else (Raise (HTTPException 401 "Invalid credentials"), db)
      | None => (Raise (HTTPException 401 "Invalid credentials"), db)
      end
  end.

(** ** /recipes/search *)

(** One [requests.get(url, params={key: value}, timeout=10)]. *)
Record Call : Type := { url : string; param_key : string; param_value : string }.

(** What came back: the status line and the body as [r.json()] decodes
    it, [None] when the body is not JSON. *)
Record HttpResponse : Type := { status_code : Z; json_body : option JVal }.

(** The external service and the network: a call either raises (no
    connection, time-out) or yields a response. *)
Abbreviation Net := (Call -> Result HttpResponse).

Definition response_json (r : HttpResponse) : Result JVal :=
  match json_body r with
  | Some v => Ok v
  | None => Raise JSONDecodeError
  end.

Definition search_url : string := "https://www.themealdb.com/api/json/v1/1/search.php".
Definition filter_url : string := "https://www.themealdb.com/api/json/v1/1/filter.php".

(** The dict appended to [results] for one meal. *)
Definition summary (m : JVal) : Result JVal :=
  id ← py_get m "idMeal";
  title ← py_get m "strMeal";
  thumbnail ← py_get m "strMealThumb";
  category ← py_get m "strCategory";
  area ← py_get m "strArea";
  Ok (JObj (<["id" := id]>
              (<["title" := title]>
                 (<["thumbnail" := thumbnail]>
                    (<["category" := category]>
                       (<["area" := area]> ∅)))))).

(** [r = requests.get(...); data = r.json(); meals = data.get("meals") or []]. *)
Definition get_meals (net : Net) (c : Call) : Result JVal :=
  r ← net c;
  data ← response_json r;
  m ← py_get data "meals";
  Ok (py_or m (JArr [])).

(** The body of the [try], with the calls it makes. *)
Definition try_body (net : Net) (payload : RecipeSearch) : Result (list JVal) * list Call :=
  let '(meals, calls) :=
    if truthy (of_opt_str (query payload))
    then
      let c := {| url := search_url; param_key := "s";
                  param_value := default EmptyString (query payload) |} in
      (get_meals net c, [c])
    else if truthy (match ingredients payload with
                    | Some l => JArr (map JStr l)
                    | None => JNull
                    end)
    then
      let c := {| url := filter_url; param_key := "i";
                  param_value := String.concat "," (default [] (ingredients payload)) |} in
      (get_meals net c, [c])
    else (Ok (JArr []), []) in
  (ms ← meals; items ← py_slice_items ms 12; for_append summary items [], calls).

(** [results] after the [try ... except Exception: results = []]. *)
Definition search_results (net : Net) (payload : RecipeSearch) : list JVal * list Call :=
  let '(r, calls) := try_body net payload in
  (match r with Ok results => results | Raise _ => [] end, calls).

Definition recipe_search (net : Net) (db : Db) (payload : RecipeSearch)
  : Result JVal * Db * list Call :=
  let '(results, calls) := search_results net payload in
  let response := JObj (<["results" := JArr results]> ∅) in
  (* persist the query optionally *)
  if truthy (of_opt_str (user_email payload))
  then
    match create_document db "recipesearch" (RecipeSearch_doc payload) with
    | (Ok _, db') => (Ok response, db', calls)
    | (Raise e, db') => (Raise e, db', calls)
    end
  else (Ok response, db, calls).

(** ** Reference definitions for the statements *)

(** The food-type lines and the goal lines as the specification tables
    them. *)
Definition food_lines (f : FoodType) : list string :=
  match f with
  | Veg | Vegan => [legume_line]
  | NonVeg => [lean_line]
  | LactoseIntolerant => [lactose_line]
  | GlutenFree | Keto | Paleo | OtherFood => []
  end.

Definition goal_lines (g : Goal) : list string :=
  match g with
  | LoseWeight => lose_weight_lines
  | GainWeight => gain_weight_lines
  | PostSurgeryGuidance => post_surgery_lines
  | Maintain | ImprovePerformance | OtherGoal => [balanced_line]
  end.

(** Idea number [i] of meal number [slot] of a day. *)
Definition idea (day : list Meal) (slot i : nat) : option string :=
  m ← day !! slot; ideas m !! i.

(** How many entries of a guideline list are food-type lines. *)
Definition count_food_lines (g : list string) : nat :=
  length (List.filter (fun l => str_in l [legume_line; lean_line; lactose_line]) g).

(** The sample day with the vegetarian default in every slot. *)
Definition default_day : list Meal :=
  [ {| meal := "Breakfast";
       ideas := [ "Oatmeal with chia and berries"; "Veggie omelette";
                  "Smoothie with spinach, banana, and plant milk" ] |};
    {| meal := "Lunch";
       ideas := [ "Quinoa bowl with beans and veggies"; "Chickpea salad";
                  "Lentil soup with whole-grain toast" ] |};
    {| meal := "Dinner";
       ideas := [ "Stir-fry veggies with tofu/tempeh"; "Rajma with brown rice";
                  "Vegetable khichdi or millet upma" ] |} ].

(** The user records of the store, and what it means for an e-mail to
    be taken and for a record to carry the credentials of a payload. *)
Definition users (db : Db) : list Document :=
  match db with
  | Some s => coll s "user"
  | None => []
  end.

Definition email_taken (db : Db) (email : string) : Prop :=
  exists d, In d (users db) /\ d !! "email" = Some (JStr email).

Definition credentials_match (d : Document) (payload : AuthPayload) : Prop :=
  d !! "email" = Some (JStr (ap_email payload)) /\
  d !! "password" = Some (JStr (ap_password payload)).

(** The two external calls. *)
Definition search_call (q : string) : Call :=
  {| url := search_url; param_key := "s"; param_value := q |}.

Definition filter_call (l : list string) : Call :=
  {| url := filter_url; param_key := "i"; param_value := String.concat "," l |}.

(** The dispatch as the specification words it: a query that is set
    goes to the search by name. *)
Definition dispatch_as_stated (payload : RecipeSearch) : list Call :=
  match query payload with
  | Some q => [search_call q]
  | None =>
      match ingredients payload with
      | Some (x :: l) => [filter_call (x :: l)]
      | _ => []
      end
  end.

(** The dispatch with a query counted only when it is not empty. *)
Definition dispatch (payload : RecipeSearch) : list Call :=
  match query payload with
  | Some (String a q) => [search_call (String a q)]
  | _ =>
      match ingredients payload with
      | Some (x :: l) => [filter_call (x :: l)]
      | _ => []
      end
  end.

(** The failures of the external call as the specification lists them:
    the call raises (network error, time-out), the body is not JSON, or
    the status is not a 2xx. *)
Definition external_failure (o : Result HttpResponse) : Prop :=
  match o with
  | Raise _ => True
  | Ok r => json_body r = None \/ ~ (200 <= status_code r < 300)%Z
  end.

(** The failures the handler does meet: the call raises, or the body
    does not decode to a JSON object. *)
Definition no_usable_body (o : Result HttpResponse) : Prop :=
  match o with
  | Raise _ => True
  | Ok r =>
      match json_body r with
      | Some (JObj _) => False
      | _ => True
      end
  end.

(** The search is recorded when [user_email] is present; recording
    needs a store. *)
Definition persisted (payload : RecipeSearch) : bool :=
  truthy (of_opt_str (user_email payload)).

Definition persist_ok (db : Db) (payload : RecipeSearch) : Prop :=
  persisted payload = true -> db <> None.

(** The summary of a meal record: five fields, absent ones as null. *)
Definition normalized (m : Document) : Document :=
  <["id" := default JNull (m !! "idMeal")]>
    (<["title" := default JNull (m !! "strMeal")]>
       (<["thumbnail" := default JNull (m !! "strMealThumb")]>
          (<["category" := default JNull (m !! "strCategory")]>
             (<["area" := default JNull (m !! "strArea")]> ∅)))).

Definition results_response (results : list JVal) : JVal :=
  JObj (<["results" := JArr results]> ∅).

(** The same service with the status of every response replaced. *)
Definition restatus (f : HttpResponse -> Z) (net : Net) : Net :=
  fun c =>
    match net c with
    | Ok r => Ok {| status_code := f r; json_body := json_body r |}
    | Raise e => Raise e
    end.

(** Requests used as concrete inputs. *)
#[warnings="-inexact-float"] Definition tiny_height_request : DietRequest :=
  {| dr_name := "A"; age := 30; height_cm := 1e-200%float; weight_kg := 70%float;
     health_issues := None; medical_history := None;
     food_type := Veg; goal := Maintain; extra_notes := None |}.

#[warnings="-inexact-float"] Definition huge_height_request : DietRequest :=
  {| dr_name := "A"; age := 30; height_cm := 1e200%float; weight_kg := 70%float;
     health_issues := None; medical_history := None;
     food_type := Veg; goal := Maintain; extra_notes := None |}.

#[warnings="-inexact-float"] Definition subnormal_height_request : DietRequest :=
  {| dr_name := "A"; age := 30; height_cm := 5e-324%float; weight_kg := 70%float;
     health_issues := None; medical_history := None;
     food_type := Veg; goal := Maintain; extra_notes := None |}.

Definition sample_request (f : FoodType) (g : Goal) : DietRequest :=
  {| dr_name := "A"; age := 30; height_cm := 170%float; weight_kg := 65%float;
     health_issues := None; medical_history := None;
     food_type := f; goal := g; extra_notes := None |}.

Definition store_with_ann : Store :=
  {| collections :=
       {[ "user" := [ User_doc {| u_name := "ann"; u_email := "ann@example.com";
                                  u_password := "secret" |} ] ]};
     next_id := 1 |}.

Definition ann_again : AuthPayload :=
  {| ap_name := None; ap_email := "ann@example.com"; ap_password := "other-password" |}.

Definition bob_signup : AuthPayload :=
  {| ap_name := None; ap_email := "bob@example.com"; ap_password := "hunter2" |}.

Definition ann_login : AuthPayload :=
  {| ap_name := None; ap_email := "ann@example.com"; ap_password := "secret" |}.

Definition ann_wrong_password : AuthPayload :=
  {| ap_name := None; ap_email := "ann@example.com"; ap_password := "Secret" |}.

Definition offline : Net := fun _ => Raise RequestException.

Definition empty_query_payload : RecipeSearch :=
  {| query := Some ""; ingredients := Some ["egg"; "flour"];
     rs_food_type := Some RAny; user_email := None |}.

Definition chicken_query : RecipeSearch :=
  {| query := Some "chicken"; ingredients := None;
     rs_food_type := Some RAny; user_email := None |}.

Definition teriyaki : Document :=
  {[ "idMeal" := JStr "52772"; "strMeal" := JStr "Teriyaki Chicken Casserole";
     "strInstructions" := JStr "Preheat oven to 350 F." ]}.

Definition chicken_query_of_ann : RecipeSearch :=
  {| query := Some "chicken"; ingredients := None;
     rs_food_type := Some RVeg; user_email := Some "ann@example.com" |}.

(** A service that answers 503 with a body that is a meals object. *)
Definition error_status_net : Net :=
  fun _ => Ok {| status_code := 503;
                 json_body := Some (JObj {[ "meals" := JArr [JObj teriyaki] ]}) |}.

Definition numbered_meal (i : Z) : Document :=
  {[ "idMeal" := JNum i; "strMeal" := JStr "Soup"; "strTags" := JNull ]}.

Definition thirteen : list Z := [1; 2; 3; 4; 5; 6; 7; 8; 9; 10; 11; 12; 13]%Z.

Definition thirteen_meals_net : Net :=
  fun _ => Ok {| status_code := 200;
                 json_body :=
                   Some (JObj {[ "meals" := JArr (map (fun i => JObj (numbered_meal i))
                                                      thirteen) ]}) |}.

(** ** /test *)

(** What [db.list_collection_names()] does: it gives the names or
    raises an exception with some text. *)
Inductive Probe : Type :=
| ProbeNames (names : list string)
| ProbeRaises (text : string).

(** The connectivity report.  [str(e)[:60]] keeps the first sixty
    characters of the text. *)
Definition test_database (db : Db) (list_collection_names : Store -> Probe) : Document :=
  let response : Document :=
    <["backend" := JStr "✅ Running"]>
      (<["database" :=
           JStr (match db with
                 | None => "❌ Not Available"
                 | Some _ => "✅ Connected"
                 end)]>
         (<["collections" := JArr []]> ∅)) in
  match db with
  | Some s =>
      match list_collection_names s with
      | ProbeNames names => <["collections" := JArr (map JStr names)]> response
      | ProbeRaises text =>
          <["database" := JStr ("⚠️ " ++ py_take 60 text)]> response
      end
  | None => response
  end.

Definition failing_probe : Store -> Probe :=
  fun _ => ProbeRaises "connection refused".

(** ** Further reference definitions *)

Definition login_response (email : string) (name : JVal) : JVal :=
  JObj (<["ok" := JBool true]>
          (<["email" := JStr email]>
             (<["name" := name]> ∅))).

Fixpoint contains_at (s : string) : bool :=
  match s with
  | EmptyString => false
  | String c s' => Ascii.eqb c "@"%char || contains_at s'
  end.

(** No two user records carry the same e-mail. *)
Definition unique_emails (l : list Document) : Prop :=
  forall (i j : nat) (d1 d2 : Document) (e : string),
    l !! i = Some d1 -> l !! j = Some d2 ->
    d1 !! "email" = Some (JStr e) -> d2 !! "email" = Some (JStr e) ->
    i = j.

(** A user record as sign-up writes it: three string fields, the
    password of at least four characters. *)
Definition user_record (d : Document) : Prop :=
  exists name email password,
    d = User_doc {| u_name := name; u_email := email; u_password := password |} /\
    (4 <= py_len password)%nat.

Definition is_record (v : JVal) : bool :=
  match v with
  | JObj _ => true
  | _ => false
  end.

Definition record_of (v : JVal) : Document :=
  match v with
  | JObj m => m
  | _ => ∅
  end.

Definition SFis_nan (x : spec_float) : bool :=
  match x with
  | S754_nan => true
  | _ => false
  end.

(** * Properties *)

(** ** The diet-plan generator *)

Section DietPlanFacts.

Variable libm_pow2 : float -> float.

(** The handler returns exactly when the BMI arithmetic does not
    raise, and then hands back the four locals. *)
Lemma generate_diet_plan_Ok (info : DietRequest) (p : DietPlan) :
  generate_diet_plan libm_pow2 info = Ok p ->
  exists b,
    full_bmi libm_pow2 info = Ok b /\
    p = {| bmi := PyFloat.round1 b;
           bmi_category := category_of b;
           guidelines := build_guidelines info;
           sample_day := build_day_plan info |}.
Proof.
  unfold generate_diet_plan.
  destruct (full_bmi libm_pow2 info) as [b|e] eqn:Hb; cbn; intros H.
  - exists b. split; [reflexivity|]. congruence.
  - discriminate.
Qed.

Lemma generate_diet_plan_returns (info : DietRequest) (b : float) :
  full_bmi libm_pow2 info = Ok b ->
  exists p, generate_diet_plan libm_pow2 info = Ok p.
Proof.
  intros Hb. unfold generate_diet_plan. rewrite Hb. cbn. eauto.
Qed.

Lemma generate_diet_plan_raises (info : DietRequest) (e : Exn) :
  full_bmi libm_pow2 info = Raise e ->
  generate_diet_plan libm_pow2 info = Raise e.
Proof.
  intros Hb. unfold generate_diet_plan. rewrite Hb. reflexivity.
Qed.

Lemma guidelines_of_plan (info : DietRequest) (p : DietPlan) :
  generate_diet_plan libm_pow2 info = Ok p ->
  guidelines p = build_guidelines info.
Proof.
  intros H. destruct (generate_diet_plan_Ok _ _ H) as (b & _ & ->). reflexivity.
Qed.

Lemma sample_day_of_plan (info : DietRequest) (p : DietPlan) :
  generate_diet_plan libm_pow2 info = Ok p ->
  sample_day p = build_day_plan info.
Proof.
  intros H. destruct (generate_diet_plan_Ok _ _ H) as (b & _ & ->). reflexivity.
Qed.

(** What the handler reports about the BMI when it returns: the
    rounded figure, and the category of the unrounded one. *)
Lemma bmi_of_plan (info : DietRequest) (p : DietPlan) :
  generate_diet_plan libm_pow2 info = Ok p ->
  exists b,
    full_bmi libm_pow2 info = Ok b /\
    bmi p = PyFloat.round1 b /\
    bmi_category p = category_of b.
Proof.
  intros H. destruct (generate_diet_plan_Ok _ _ H) as (b & Hb & ->). eauto.
Qed.

End DietPlanFacts.

(** The statements that append to [guidelines] amount to the two tables. *)
Lemma build_guidelines_tables (info : DietRequest) :
  build_guidelines info = food_lines (food_type info) ++ goal_lines (goal info).
Proof.
  unfold build_guidelines.
  destruct (food_type info), (goal info); reflexivity.
Qed.

Lemma food_lines_length (f : FoodType) : (length (food_lines f) <= 1)%nat.
Proof. destruct f; cbn; lia. Qed.

Lemma goal_lines_length (g : Goal) :
  length (goal_lines g) = 3%nat \/ goal_lines g = [balanced_line].
Proof. destruct g; cbn; auto. Qed.

(** The category follows the comparisons of the conditional expression. *)
Lemma category_of_thresholds (b : float) :
  (PrimFloat.ltb b 18.5%float = true -> category_of b = "underweight") /\
  (PrimFloat.ltb b 18.5%float = false -> PrimFloat.ltb b 25%float = true ->
   category_of b = "normal") /\
  (PrimFloat.ltb b 18.5%float = false -> PrimFloat.ltb b 25%float = false ->
   PrimFloat.ltb b 30%float = true -> category_of b = "overweight") /\
  (PrimFloat.ltb b 18.5%float = false -> PrimFloat.ltb b 25%float = false ->
   PrimFloat.ltb b 30%float = false -> category_of b = "obese").
Proof.
  unfold category_of.
  repeat split; intros; repeat match goal with H : _ = _ |- _ => rewrite H end; reflexivity.
Qed.

Example category_at_18_5 : category_of 18.5%float = "normal".
Proof. reflexivity. Qed.

Example category_at_25 : category_of 25%float = "overweight".
Proof. reflexivity. Qed.

Example category_at_30 : category_of 30%float = "obese".
Proof. reflexivity. Qed.

Example category_below_18_5 : category_of 0x1.27fffffffffffp+4%float = "underweight".
Proof. reflexivity. Qed.

Example round1_half_even : PyFloat.round1 0.25%float = 0x1.999999999999ap-3%float.
Proof. reflexivity. Qed.

Example sample_request_plan :
  exists p,
    generate_diet_plan PyFloat.pow2_rn (sample_request Vegan LoseWeight) = Ok p /\
    bmi p = 22.5%float /\ bmi_category p = "normal".
Proof. eexists. split; [vm_compute; reflexivity|]. split; reflexivity. Qed.

(** C1: a request that passes validation, with height_cm = 1e-200 and
    weight_kg = 70, does not get a BMI: the squared height in metres
    underflows to zero and the division raises ZeroDivisionError, which
    the client sees as a 500. *)
Theorem diet_plan_tiny_height_raises :
  valid_DietRequest tiny_height_request = true /\
  generate_diet_plan PyFloat.pow2_rn tiny_height_request = Raise ZeroDivisionError /\
  http_status (generate_diet_plan PyFloat.pow2_rn tiny_height_request) = 500%Z.
Proof. repeat split; vm_compute; reflexivity. Qed.

(** With the smallest positive height the quotient [height_cm/100] is
    already zero, so the failure does not depend on the C library. *)
Lemma diet_plan_subnormal_height_raises (libm_pow2 : float -> float) :
  valid_DietRequest subnormal_height_request = true /\
  generate_diet_plan libm_pow2 subnormal_height_request = Raise ZeroDivisionError.
Proof. split; vm_compute; reflexivity. Qed.

(** A height whose square overflows makes the power raise. *)
Example diet_plan_huge_height_raises :
  valid_DietRequest huge_height_request = true /\
  generate_diet_plan PyFloat.pow2_rn huge_height_request = Raise OverflowError.
Proof. split; vm_compute; reflexivity. Qed.

(** The handler returns exactly when the arithmetic of the BMI does. *)
Lemma generate_diet_plan_returns_iff (libm_pow2 : float -> float) (info : DietRequest) :
  (exists p, generate_diet_plan libm_pow2 info = Ok p)
  <-> (exists b, full_bmi libm_pow2 info = Ok b).
Proof.
  split.
  - intros [p H]. destruct (generate_diet_plan_Ok _ _ _ H) as (b & Hb & _). eauto.
  - intros [b Hb]. eapply generate_diet_plan_returns, Hb.
Qed.

(** C2: the guidelines of a returned plan are the food-type lines
    followed by the lines of exactly one goal branch, they are the same
    for any two requests with the same food_type and goal, and for
    vegan with lose-weight they are the legume line followed by the
    three lose-weight lines, four entries in all. *)
Theorem guidelines_determined_by_food_type_and_goal
  (libm_pow2 : float -> float) (info : DietRequest) (p : DietPlan) :
  generate_diet_plan libm_pow2 info = Ok p ->
  guidelines p = food_lines (food_type info) ++ goal_lines (goal info) /\
  (forall libm' info' p',
      generate_diet_plan libm' info' = Ok p' ->
      food_type info' = food_type info -> goal info' = goal info ->
      guidelines p' = guidelines p) /\
  (food_type info = Vegan -> goal info = LoseWeight ->
   length (guidelines p) = 4%nat /\
   guidelines p =
     [ "Prioritize legumes, tofu, nuts, seeds for protein.";
       "Aim for a 300-500 kcal deficit.";
       "High-volume, low-calorie foods (salads, soups).";
       "30-40 minutes of brisk walking or cardio, 5x/week." ]).
Proof.
  intros H.
  assert (Hg : guidelines p = food_lines (food_type info) ++ goal_lines (goal info)).
  { rewrite (guidelines_of_plan _ _ _ H). apply build_guidelines_tables. }
  split; [exact Hg|]. split.
  - intros libm' info' p' H' Hf Hgo.
    rewrite (guidelines_of_plan _ _ _ H'), build_guidelines_tables, Hg.
    congruence.
  - intros Hf Hgo. rewrite Hg, Hf, Hgo. split; reflexivity.
Qed.

Lemma guidelines_determined_witness :
  exists p,
    generate_diet_plan PyFloat.pow2_rn (sample_request Vegan LoseWeight) = Ok p /\
    length (guidelines p) = 4%nat.
Proof.
  eexists. split.
  - vm_compute. reflexivity.
  - eapply (guidelines_determined_by_food_type_and_goal
              PyFloat.pow2_rn (sample_request Vegan LoseWeight)).
    + vm_compute. reflexivity.
    + reflexivity.
    + reflexivity.
Defined.

(** C3, as stated, fails: no request has the legume line, the
    lean-protein line and the lactose line together in its guidelines. *)
Lemma food_type_branches_never_all_trigger :
  ~ exists libm_pow2 info p,
      generate_diet_plan libm_pow2 info = Ok p /\
      In legume_line (guidelines p) /\
      In lean_line (guidelines p) /\
      In lactose_line (guidelines p).
Proof.
  intros (libm & info & p & H & H1 & H2 & H3).
  rewrite (guidelines_of_plan _ _ _ H), build_guidelines_tables in H1, H2, H3.
  destruct (food_type info), (goal info); cbn in H1, H2, H3;
    intuition discriminate.
Qed.

(** C3, amended: each of the three food-type statements is decided by
    food_type alone (the legume line for veg and vegan, the lean-protein
    line for non-veg, the lactose line for lactose-intolerant), and at
    most one of the three lines appears in the guidelines of a request. *)
Theorem food_type_lines_exclusive
  (libm_pow2 : float -> float) (info : DietRequest) (p : DietPlan) :
  generate_diet_plan libm_pow2 info = Ok p ->
  (In legume_line (guidelines p) <-> food_type info = Veg \/ food_type info = Vegan) /\
  (In lean_line (guidelines p) <-> food_type info = NonVeg) /\
  (In lactose_line (guidelines p) <-> food_type info = LactoseIntolerant) /\
  (count_food_lines (guidelines p) <= 1)%nat.
Proof.
  intros H.
  rewrite (guidelines_of_plan _ _ _ H), build_guidelines_tables.
  destruct (food_type info), (goal info); cbn;
    repeat split; intros; try lia; intuition (discriminate || auto).
Qed.

Lemma food_type_lines_exclusive_witness :
  exists p,
    generate_diet_plan PyFloat.pow2_rn (sample_request NonVeg Maintain) = Ok p /\
    (count_food_lines (guidelines p) <= 1)%nat.
Proof.
  eexists. split.
  - vm_compute. reflexivity.
  - eapply (food_type_lines_exclusive PyFloat.pow2_rn (sample_request NonVeg Maintain)).
    vm_compute. reflexivity.
Defined.

Lemma build_day_plan_cases (info : DietRequest) :
  build_day_plan info =
    [ {| meal := "Breakfast";
         ideas := [ "Oatmeal with chia and berries";
                    match food_type info with
                    | Vegan => "Tofu scramble"
                    | _ => "Veggie omelette"
                    end;
                    "Smoothie with spinach, banana, and plant milk" ] |};
      {| meal := "Lunch";
         ideas := [ "Quinoa bowl with beans and veggies";
                    match food_type info with
                    | NonVeg => "Grilled chicken salad"
                    | _ => "Chickpea salad"
                    end;
                    "Lentil soup with whole-grain toast" ] |};
      {| meal := "Dinner";
         ideas := [ "Stir-fry veggies with tofu/tempeh";
                    match food_type info with
                    | NonVeg => "Baked fish with steamed veggies"
                    | _ => "Rajma with brown rice"
                    end;
                    "Vegetable khichdi or millet upma" ] |} ].
Proof. unfold build_day_plan. destruct (food_type info); reflexivity. Qed.

(** C4: the sample day of a returned plan has the three meals
    Breakfast, Lunch, Dinner in that order with three ideas each; the
    idea at index 1 is the chicken salad at lunch and the baked fish at
    dinner for non-veg, the tofu scramble at breakfast for vegan, and
    the vegetarian default in every other case; the ideas at the other
    indices are never substituted. *)
Theorem sample_day_shape_and_substitution
  (libm_pow2 : float -> float) (info : DietRequest) (p : DietPlan) :
  generate_diet_plan libm_pow2 info = Ok p ->
  map meal (sample_day p) = ["Breakfast"; "Lunch"; "Dinner"] /\
  Forall (fun m => length (ideas m) = 3%nat) (sample_day p) /\
  (food_type info = NonVeg ->
   idea (sample_day p) 1 1 = Some "Grilled chicken salad" /\
   idea (sample_day p) 2 1 = Some "Baked fish with steamed veggies" /\
   idea (sample_day p) 0 1 = idea default_day 0 1) /\
  (food_type info = Vegan ->
   idea (sample_day p) 0 1 = Some "Tofu scramble" /\
   idea (sample_day p) 1 1 = idea default_day 1 1 /\
   idea (sample_day p) 2 1 = idea default_day 2 1) /\
  (food_type info <> NonVeg -> food_type info <> Vegan ->
   sample_day p = default_day) /\
  (forall slot i, i <> 1%nat ->
                  idea (sample_day p) slot i = idea default_day slot i).
Proof.
  intros H.
  rewrite (sample_day_of_plan _ _ _ H), build_day_plan_cases.
  split; [reflexivity|].
  split; [repeat constructor|].
  split; [intros ->; repeat split; reflexivity|].
  split; [intros ->; repeat split; reflexivity|].
  split.
  - intros Hn Hv. destruct (food_type info); try reflexivity; congruence.
  - intros slot i Hi.
    destruct slot as [|[|[|slot]]]; try reflexivity;
      destruct i as [|[|[|i]]]; try reflexivity; congruence.
Qed.

Lemma sample_day_witness :
  exists p,
    generate_diet_plan PyFloat.pow2_rn (sample_request NonVeg GainWeight) = Ok p /\
    map meal (sample_day p) = ["Breakfast"; "Lunch"; "Dinner"] /\
    idea (sample_day p) 1 1 = Some "Grilled chicken salad".
Proof.
  eexists. split.
  - vm_compute. reflexivity.
  - pose proof (sample_day_shape_and_substitution
                  PyFloat.pow2_rn (sample_request NonVeg GainWeight) _ eq_refl)
      as (Hm & _ & Hn & _).
    split; [exact Hm|]. apply Hn. reflexivity.
Defined.

(** C10: the guidelines of a returned plan are the food-type part, of
    at most one line, followed by the goal part, which has exactly three
    lines for lose-weight, gain-weight and post-surgery-guidance and is
    the single balanced-plate line for every other goal; so the list has
    between one and four entries. *)
Theorem guidelines_length_bounds
  (libm_pow2 : float -> float) (info : DietRequest) (p : DietPlan) :
  generate_diet_plan libm_pow2 info = Ok p ->
  (1 <= length (guidelines p) <= 4)%nat /\
  (count_food_lines (guidelines p) <= 1)%nat /\
  exists fl gl,
    guidelines p = fl ++ gl /\
    fl = food_lines (food_type info) /\
    (length fl <= 1)%nat /\
    (goal info = LoseWeight \/ goal info = GainWeight \/ goal info = PostSurgeryGuidance ->
     length gl = 3%nat) /\
    (goal info <> LoseWeight -> goal info <> GainWeight ->
     goal info <> PostSurgeryGuidance -> gl = [balanced_line]).
Proof.
  intros H.
  rewrite (guidelines_of_plan _ _ _ H), build_guidelines_tables.
  split; [|split].
  - rewrite length_app.
    pose proof (food_lines_length (food_type info)).
    destruct (goal_lines_length (goal info)) as [Hl|Hl]; rewrite Hl; cbn; lia.
  - destruct (food_type info), (goal info); cbn; lia.
  - exists (food_lines (food_type info)), (goal_lines (goal info)).
    split; [reflexivity|]. split; [reflexivity|].
    split; [apply food_lines_length|]. split.
    + intros [-> | [-> | ->]]; reflexivity.
    + intros H1 H2 H3. destruct (goal info); try reflexivity; congruence.
Qed.

Lemma guidelines_length_witness :
  exists p,
    generate_diet_plan PyFloat.pow2_rn (sample_request Keto OtherGoal) = Ok p /\
    (1 <= length (guidelines p) <= 4)%nat.
Proof.
  eexists. split.
  - vm_compute. reflexivity.
  - eapply (guidelines_length_bounds PyFloat.pow2_rn (sample_request Keto OtherGoal)).
    vm_compute. reflexivity.
Defined.

(** ** Sign-up and login *)

Lemma field_is_spec (d : Document) (k v : string) :
  field_is d k v = true <-> d !! k = Some (JStr v).
Proof.
  unfold field_is.
  destruct (d !! k) as [[| | | |s| |]|]; try (split; [discriminate|congruence]).
  rewrite String.eqb_eq. split; congruence.
Qed.

Lemma matches_email (d : Document) (e : string) :
  matches [("email", e)] d = true <-> d !! "email" = Some (JStr e).
Proof.
  unfold matches. cbn [forallb fst snd].
  rewrite andb_true_r. apply field_is_spec.
Qed.

Lemma matches_credentials (d : Document) (payload : AuthPayload) :
  matches [("email", ap_email payload); ("password", ap_password payload)] d = true
  <-> credentials_match d payload.
Proof.
  unfold matches, credentials_match. cbn [forallb fst snd].
  rewrite andb_true_r, andb_true_iff, !field_is_spec. reflexivity.
Qed.

Lemma find_email_nonempty (db : Db) (e : string) :
  match db with
  | Some s => find s "user" [("email", e)]
  | None => []
  end <> [] <-> email_taken db e.
Proof.
  unfold email_taken, users, find. destruct db as [s|].
  - split.
    + intros Hne.
      destruct (List.filter (matches [("email", e)]) (coll s "user")) as [|d l] eqn:Hf;
        [congruence|].
      assert (Hin : In d (List.filter (matches [("email", e)]) (coll s "user")))
        by (rewrite Hf; left; reflexivity).
      apply filter_In in Hin as [Hin Hm].
      exists d. split; [exact Hin|]. apply matches_email, Hm.
    + intros (d & Hin & Hd) Hnil.
      assert (Hf : In d (List.filter (matches [("email", e)]) (coll s "user"))).
      { apply filter_In. split; [exact Hin|]. apply matches_email, Hd. }
      rewrite Hnil in Hf. destruct Hf.
  - split; [congruence|]. intros (d & [] & _).
Qed.

Lemma coll_insert_record_same (s : Store) (name : string) (doc : Document) :
  coll (snd (insert_record s name doc)) name = coll s name ++ [doc].
Proof. unfold coll at 1. cbn. rewrite lookup_insert_eq. reflexivity. Qed.

Lemma coll_insert_record_other (s : Store) (name other : string) (doc : Document) :
  other <> name ->
  coll (snd (insert_record s name doc)) other = coll s other.
Proof.
  intros Hne. unfold coll at 1. cbn.
  rewrite lookup_insert_ne by congruence. reflexivity.
Qed.

Lemma create_document_Ok (db db' : Db) (name : string) (doc : Document) (i : N) :
  create_document db name doc = (Ok i, db') ->
  exists s, db = Some s /\ i = next_id s /\ db' = Some (snd (insert_record s name doc)).
Proof.
  unfold create_document. destruct db as [s|]; [|discriminate].
  cbn. intros H. injection H as <- <-. eauto.
Qed.

(** With a store configured, every sign-up stops at the truth test of
    the handle. *)
Lemma signup_configured_raises (s : Store) (payload : AuthPayload) :
  signup (Some s) payload = (Raise NotImplementedError, Some s).
Proof. reflexivity. Qed.

(** Without a store nothing is found, and the insertion fails if the
    record is built at all. *)
Lemma signup_unconfigured (payload : AuthPayload) :
  signup None payload
  = (Raise (if (4 <=? py_len (ap_password payload))%nat
            then DatabaseNotAvailable else ValidationError), None).
Proof.
  unfold signup, User_new.
  destruct (4 <=? py_len (ap_password payload))%nat; reflexivity.
Qed.

Lemma signup_store_unchanged (db : Db) (payload : AuthPayload) :
  snd (signup db payload) = db.
Proof.
  destruct db as [s|].
  - rewrite signup_configured_raises. reflexivity.
  - rewrite signup_unconfigured. reflexivity.
Qed.

(** C5: with a store configured that already holds a user record with
    the e-mail of the payload, sign-up does not answer with the 400
    "User already exists": the truth test of the handle raises
    NotImplementedError before the lookup, the client sees a 500, and
    the store is left as it was. *)
Theorem signup_truth_test_raises :
  email_taken (Some store_with_ann) (ap_email ann_again) /\
  signup (Some store_with_ann) ann_again
  = (Raise NotImplementedError, Some store_with_ann) /\
  http_status (fst (signup (Some store_with_ann) ann_again)) = 500%Z /\
  signup (Some store_with_ann) ann_again
  <> (Raise (HTTPException 400 "User already exists"), Some store_with_ann).
Proof.
  split; [|split; [|split]].
  - exists (User_doc {| u_name := "ann"; u_email := "ann@example.com";
                        u_password := "secret" |}).
    split; [left|]; reflexivity.
  - reflexivity.
  - reflexivity.
  - rewrite signup_configured_raises. discriminate.
Qed.

(** An omitted name is taken from the e-mail, up to the at sign. *)
Example before_at_local_part : before_at "bob@example.com" = "bob".
Proof. reflexivity. Qed.

(** A password shorter than four characters passes the payload model
    and fails the construction of the user record; the length is
    counted in characters. *)
Example signup_short_password :
  signup None {| ap_name := None; ap_email := "bob@example.com"; ap_password := "abc" |}
  = (Raise ValidationError, None).
Proof. reflexivity. Qed.

Example py_len_counts_characters :
  py_len "ééé" = 3%nat /\ String.length "ééé" = 6%nat /\
  User_new "e" "e@example.com" "ééé" = Raise ValidationError.
Proof. repeat split; reflexivity. Qed.

Lemma find_one_Some (s : Store) (payload : AuthPayload) (d : Document) :
  find_one s "user" [("email", ap_email payload); ("password", ap_password payload)]
  = Some d ->
  In d (coll s "user") /\ credentials_match d payload.
Proof.
  unfold find_one. intros H. apply find_some in H as [Hin Hm].
  split; [exact Hin|]. apply matches_credentials, Hm.
Qed.

Lemma find_one_None (s : Store) (payload : AuthPayload) :
  find_one s "user" [("email", ap_email payload); ("password", ap_password payload)]
  = None ->
  ~ exists d, In d (coll s "user") /\ credentials_match d payload.
Proof.
  unfold find_one. intros H (d & Hin & Hm).
  apply matches_credentials in Hm.
  pose proof (find_none _ _ H d Hin). congruence.
Qed.

Lemma truthy_matching_record (d : Document) (payload : AuthPayload) :
  credentials_match d payload -> truthy (JObj d) = true.
Proof.
  intros [He _]. cbn. rewrite bool_decide_eq_false_2; [reflexivity|].
  intros ->. rewrite lookup_empty in He. discriminate.
Qed.

(** C6: with a store configured, login raises the 401 "Invalid
    credentials" exactly when no stored user record has both the e-mail
    and the password of the payload; otherwise it returns the flag, the
    e-mail and the name of the first such record and nothing else, in
    particular no password; and the store is the same afterwards. *)
Theorem login_unauthorized_iff_no_match (s : Store) (payload : AuthPayload) :
  (fst (login (Some s) payload) = Raise (HTTPException 401 "Invalid credentials")
   <-> ~ exists d, In d (coll s "user") /\ credentials_match d payload) /\
  ((exists d, In d (coll s "user") /\ credentials_match d payload) ->
   exists d m,
     In d (coll s "user") /\ credentials_match d payload /\
     find_one s "user" [("email", ap_email payload); ("password", ap_password payload)]
     = Some d /\
     fst (login (Some s) payload) = Ok (JObj m) /\
     m = <["ok" := JBool true]>
           (<["email" := JStr (ap_email payload)]>
              (<["name" := default JNull (d !! "name")]> ∅)) /\
     m !! "password" = None) /\
  snd (login (Some s) payload) = Some s.
Proof.
  unfold login.
  destruct (find_one s "user" _) as [u|] eqn:Hf.
  - destruct (find_one_Some _ _ _ Hf) as [Hin Hm].
    rewrite (truthy_matching_record _ _ Hm). cbn [fst snd].
    split; [|split; [|reflexivity]].
    + split; [discriminate|]. intros Hno. exfalso. apply Hno. eauto.
    + intros _. exists u. eexists.
      split; [exact Hin|]. split; [exact Hm|]. split; [reflexivity|].
      destruct Hm as [He _]. rewrite He. cbn [default].
      split; [reflexivity|]. split; reflexivity.
  - pose proof (find_one_None _ _ Hf) as Hno. cbn [fst snd].
    split; [|split; [|reflexivity]].
    + split; [intros _; exact Hno|reflexivity].
    + intros Hex. contradiction.
Qed.

Lemma login_witness :
  exists d m,
    In d (coll store_with_ann "user") /\ credentials_match d ann_login /\
    find_one store_with_ann "user"
      [("email", ap_email ann_login); ("password", ap_password ann_login)] = Some d /\
    fst (login (Some store_with_ann) ann_login) = Ok (JObj m) /\
    m = <["ok" := JBool true]>
          (<["email" := JStr (ap_email ann_login)]>
             (<["name" := default JNull (d !! "name")]> ∅)) /\
    m !! "password" = None.
Proof.
  apply (login_unauthorized_iff_no_match store_with_ann ann_login).
  exists (User_doc {| u_name := "ann"; u_email := "ann@example.com";
                      u_password := "secret" |}).
  split; [left; reflexivity|]. split; reflexivity.
Defined.

Example login_wrong_password :
  login (Some store_with_ann) ann_wrong_password
  = (Raise (HTTPException 401 "Invalid credentials"), Some store_with_ann).
Proof. reflexivity. Qed.

Example login_ann :
  login (Some store_with_ann) ann_login
  = (Ok (JObj (<["ok" := JBool true]>
                 (<["email" := JStr "ann@example.com"]>
                    (<["name" := JStr "ann"]> ∅)))), Some store_with_ann).
Proof. reflexivity. Qed.

Example login_without_store :
  login None ann_login = (Raise (HTTPException 500 "Database not configured"), None).
Proof. reflexivity. Qed.

(** ** Recipe search *)

Lemma search_results_calls (net : Net) (payload : RecipeSearch) :
  snd (search_results net payload) = dispatch payload.
Proof.
  unfold search_results, try_body, dispatch.
  destruct (query payload) as [[|a q]|], (ingredients payload) as [[|x l]|];
    reflexivity.
Qed.

Lemma recipe_search_calls (net : Net) (db : Db) (payload : RecipeSearch) :
  snd (recipe_search net db payload) = snd (search_results net payload).
Proof.
  unfold recipe_search.
  destruct (search_results net payload) as [results calls].
  destruct (truthy _); [|reflexivity].
  destruct (create_document _ _ _) as [[i|e] db']; reflexivity.
Qed.

(** The handler answers with the results of the [try] unless recording
    the search raises. *)
Lemma recipe_search_response (net : Net) (db : Db) (payload : RecipeSearch) :
  persist_ok db payload ->
  fst (fst (recipe_search net db payload))
  = Ok (results_response (fst (search_results net payload))).
Proof.
  unfold recipe_search, persist_ok, persisted, results_response.
  destruct (search_results net payload) as [results calls].
  destruct (truthy _); [|reflexivity].
  intros Hdb. destruct db as [s|]; [reflexivity|].
  exfalso. apply Hdb; reflexivity.
Qed.

Lemma recipe_search_outcome (net : Net) (db : Db) (payload : RecipeSearch) :
  fst (fst (recipe_search net db payload))
  = Ok (results_response (fst (search_results net payload)))
  \/ (persisted payload = true /\ db = None /\
      fst (fst (recipe_search net db payload)) = Raise DatabaseNotAvailable).
Proof.
  unfold recipe_search, persisted, results_response.
  destruct (search_results net payload) as [results calls].
  destruct (truthy _); [|left; reflexivity].
  destruct db as [s|]; [left; reflexivity|right; repeat split].
Qed.

(** The results in terms of what the one call gave. *)
Lemma search_results_of_call (net : Net) (payload : RecipeSearch) (c : Call) :
  dispatch payload = [c] ->
  fst (search_results net payload)
  = match (ms ← get_meals net c; items ← py_slice_items ms 12;
           for_append summary items []) with
    | Ok results => results
    | Raise _ => []
    end.
Proof.
  unfold search_results, try_body, dispatch.
  destruct (query payload) as [[|a q]|], (ingredients payload) as [[|x l]|];
    intros H; try discriminate; injection H as <-; reflexivity.
Qed.

Lemma search_results_no_call (net : Net) (payload : RecipeSearch) :
  dispatch payload = [] -> fst (search_results net payload) = [].
Proof.
  unfold search_results, try_body, dispatch.
  destruct (query payload) as [[|a q]|], (ingredients payload) as [[|x l]|];
    intros H; try discriminate; reflexivity.
Qed.

Lemma get_meals_no_usable_body (net : Net) (c : Call) :
  no_usable_body (net c) -> exists e, get_meals net c = Raise e.
Proof.
  unfold no_usable_body, get_meals.
  destruct (net c) as [r|e]; cbn; [|eauto].
  unfold response_json.
  destruct (json_body r) as [[| | | | | |m]|]; cbn; intros H; eauto; contradiction.
Qed.

Lemma for_append_summary (objs : list Document) (out : list JVal) :
  for_append summary (map JObj objs) out
  = Ok (out ++ map (fun m => JObj (normalized m)) objs).
Proof.
  revert out. induction objs as [|m objs IH]; intros out; cbn [map for_append].
  - rewrite app_nil_r. reflexivity.
  - change (summary (JObj m)) with (Ok (JObj (normalized m))).
    cbv beta iota. rewrite IH, <- app_assoc. reflexivity.
Qed.

Lemma normalized_fields (m : Document) :
  dom (normalized m) = ({["id"; "title"; "thumbnail"; "category"; "area"]} : gset string) /\
  normalized m !! "id" = Some (default JNull (m !! "idMeal")) /\
  normalized m !! "title" = Some (default JNull (m !! "strMeal")) /\
  normalized m !! "thumbnail" = Some (default JNull (m !! "strMealThumb")) /\
  normalized m !! "category" = Some (default JNull (m !! "strCategory")) /\
  normalized m !! "area" = Some (default JNull (m !! "strArea")).
Proof.
  unfold normalized. split.
  - rewrite !dom_insert_L, dom_empty_L. set_solver.
  - repeat split; reflexivity.
Qed.

(** C7, as stated, fails: a query that is set to the empty string is
    not sent to the search by name; with ingredients present the filter
    endpoint is called instead. *)
Lemma empty_query_not_searched :
  query empty_query_payload = Some "" /\
  snd (recipe_search offline None empty_query_payload) = [filter_call ["egg"; "flour"]] /\
  snd (recipe_search offline None empty_query_payload)
  <> dispatch_as_stated empty_query_payload.
Proof. split; [reflexivity|]. split; [reflexivity|]. discriminate. Qed.

(** C7, amended: a query that is set and not empty goes to the search
    by name with that term; otherwise ingredients that are set and not
    empty go to the filter endpoint, joined by commas; otherwise no
    external call is made and the result list is empty. *)
Theorem recipe_search_dispatch (net : Net) (db : Db) (payload : RecipeSearch) :
  snd (recipe_search net db payload) = dispatch payload /\
  (forall a q,
      query payload = Some (String a q) ->
      snd (recipe_search net db payload)
      = [ {| url := search_url; param_key := "s"; param_value := String a q |} ]) /\
  (forall x l,
      query payload = None \/ query payload = Some "" ->
      ingredients payload = Some (x :: l) ->
      snd (recipe_search net db payload)
      = [ {| url := filter_url; param_key := "i";
             param_value := String.concat "," (x :: l) |} ]) /\
  (query payload = None \/ query payload = Some "" ->
   ingredients payload = None \/ ingredients payload = Some [] ->
   snd (recipe_search net db payload) = [] /\
   fst (search_results net payload) = [] /\
   (persist_ok db payload ->
    fst (fst (recipe_search net db payload)) = Ok (results_response []))).
Proof.
  assert (Hc : snd (recipe_search net db payload) = dispatch payload)
    by (rewrite recipe_search_calls; apply search_results_calls).
  split; [exact Hc|]. rewrite Hc. unfold dispatch.
  split; [|split].
  - intros a q ->. reflexivity.
  - intros x l [-> | ->] ->; reflexivity.
  - intros Hq Hi.
    assert (Hd : dispatch payload = []).
    { unfold dispatch. destruct Hq as [-> | ->], Hi as [-> | ->]; reflexivity. }
    fold (dispatch payload). split; [exact Hd|].
    split; [apply search_results_no_call, Hd|].
    intros Hp. rewrite (recipe_search_response _ _ _ Hp).
    rewrite (search_results_no_call _ _ Hd). reflexivity.
Qed.

Lemma recipe_search_dispatch_witness :
  snd (recipe_search offline None chicken_query)
  = [ {| url := search_url; param_key := "s"; param_value := "chicken" |} ].
Proof.
  apply (recipe_search_dispatch offline None chicken_query). reflexivity.
Defined.


Lemma get_meals_restatus (f : HttpResponse -> Z) (net : Net) (c : Call) :
  get_meals (restatus f net) c = get_meals net c.
Proof.
  unfold get_meals, restatus, response_json.
  destruct (net c) as [r|e]; reflexivity.
Qed.

Lemma search_results_restatus (f : HttpResponse -> Z) (net : Net) (payload : RecipeSearch) :
  search_results (restatus f net) payload = search_results net payload.
Proof.
  unfold search_results, try_body.
  destruct (truthy (of_opt_str (query payload)));
    [|destruct (truthy _)]; cbv zeta; rewrite ?get_meals_restatus; reflexivity.
Qed.

Lemma results_response_compliant (results : list JVal) :
  json_compliant (results_response results) = forallb json_compliant results.
Proof.
  unfold results_response.
  change (json_compliant (JObj (<["results" := JArr results]> ∅)))
    with (json_compliant (JArr results) && true).
  rewrite andb_true_r. reflexivity.
Qed.



(** An answer that holds an infinity is returned by the handler and
    refused by the rendering. *)
Example infinite_number_is_a_500 :
  http_status
    (fst (fst (recipe_search
                 (fun _ => Ok {| status_code := 200;
                                 json_body :=
                                   Some (JObj {[ "meals" :=
                                     JArr [JObj {[ "idMeal" := JFloat infinity ]}] ]}) |})
                 None chicken_query))) = 500%Z.
Proof. vm_compute. reflexivity. Qed.

Lemma get_meals_list (net : Net) (c : Call) (r : HttpResponse)
      (data : Document) (ms : list JVal) :
  net c = Ok r ->
  json_body r = Some (JObj data) ->
  data !! "meals" = Some (JArr ms) ->
  get_meals net c = Ok (JArr ms).
Proof.
  intros Hn Hj Hm. unfold get_meals, response_json. rewrite Hn. cbn.
  rewrite Hj. cbn. rewrite Hm. cbn. unfold py_or. destruct ms; reflexivity.
Qed.

(** C9: when the external response carries a list of meal records, the
    results are the summaries of its first min(12, length) records, in the
    order of the service; each summary has exactly the fields id, title,
    thumbnail, category, area, read from idMeal, strMeal, strMealThumb,
    strCategory, strArea, with null for a field the record lacks. *)
Theorem results_are_first_twelve_normalized
  (net : Net) (db : Db) (payload : RecipeSearch) (c : Call) (r : HttpResponse)
  (data : Document) (ms : list JVal) (objs : list Document) :
  snd (recipe_search net db payload) = [c] ->
  net c = Ok r ->
  json_body r = Some (JObj data) ->
  data !! "meals" = Some (JArr ms) ->
  firstn 12 ms = map JObj objs ->
  fst (search_results net payload) = map (fun m => JObj (normalized m)) objs /\
  length (fst (search_results net payload)) = Nat.min 12 (length ms) /\
  (persist_ok db payload ->
   fst (fst (recipe_search net db payload))
   = Ok (results_response (map (fun m => JObj (normalized m)) objs))) /\
  (forall m,
      dom (normalized m)
      = ({["id"; "title"; "thumbnail"; "category"; "area"]} : gset string) /\
      normalized m !! "id" = Some (default JNull (m !! "idMeal")) /\
      normalized m !! "title" = Some (default JNull (m !! "strMeal")) /\
      normalized m !! "thumbnail" = Some (default JNull (m !! "strMealThumb")) /\
      normalized m !! "category" = Some (default JNull (m !! "strCategory")) /\
      normalized m !! "area" = Some (default JNull (m !! "strArea"))).
Proof.
  intros Hc Hn Hj Hm Hobjs.
  rewrite recipe_search_calls, search_results_calls in Hc.
  assert (Hr : fst (search_results net payload)
               = map (fun m => JObj (normalized m)) objs).
  { rewrite (search_results_of_call _ _ _ Hc), (get_meals_list _ _ _ _ _ Hn Hj Hm).
    cbn. rewrite Hobjs, for_append_summary. reflexivity. }
  split; [exact Hr|]. split; [|split].
  - rewrite Hr, length_map.
    rewrite <- (length_map JObj objs), <- Hobjs. apply length_firstn.
  - intros Hp. rewrite (recipe_search_response _ _ _ Hp), Hr. reflexivity.
  - apply normalized_fields.
Qed.

Lemma results_truncated_witness :
  fst (search_results thirteen_meals_net chicken_query)
  = map (fun m => JObj (normalized m)) (map numbered_meal (firstn 12 thirteen)) /\
  length (fst (search_results thirteen_meals_net chicken_query)) = 12%nat.
Proof.
  destruct (results_are_first_twelve_normalized
              thirteen_meals_net None chicken_query (search_call "chicken")
              {| status_code := 200;
                 json_body :=
                   Some (JObj {[ "meals" := JArr (map (fun i => JObj (numbered_meal i))
                                                      thirteen) ]}) |}
              {[ "meals" := JArr (map (fun i => JObj (numbered_meal i)) thirteen) ]}
              (map (fun i => JObj (numbered_meal i)) thirteen)
              (map numbered_meal (firstn 12 thirteen))
              eq_refl eq_refl eq_refl eq_refl eq_refl) as (H1 & H2 & _).
  split; [exact H1|exact H2].
Defined.

(** A list with an entry that is not a record makes the loop raise, and
    the results are reset. *)
Example results_reset_on_bad_item :
  fst (search_results
         (fun _ => Ok {| status_code := 200;
                         json_body :=
                           Some (JObj {[ "meals" :=
                                           JArr [JObj teriyaki; JStr "x"] ]}) |})
         chicken_query) = [].
Proof. vm_compute. reflexivity. Qed.

(** ** Sign-up and login, continued *)

(** Login in closed form: the first record with the credentials. *)
Lemma login_find (s : Store) (payload : AuthPayload) :
  fst (login (Some s) payload)
  = match List.find
            (matches [("email", ap_email payload); ("password", ap_password payload)])
            (coll s "user") with
    | Some u => Ok (login_response (ap_email payload) (default JNull (u !! "name")))
    | None => Raise (HTTPException 401 "Invalid credentials")
    end.
Proof.
  unfold login. fold (find_one s "user"
    [("email", ap_email payload); ("password", ap_password payload)]).
  destruct (find_one s "user" _) as [u|] eqn:Hf; [|reflexivity].
  destruct (find_one_Some _ _ _ Hf) as [_ Hm].
  rewrite (truthy_matching_record _ _ Hm).
  destruct Hm as [He _]. rewrite He. reflexivity.
Qed.

Lemma login_store (db : Db) (payload : AuthPayload) :
  snd (login db payload) = db.
Proof.
  unfold login. destruct db as [s|]; [|reflexivity].
  destruct (find_one s "user" _) as [u|]; [|reflexivity].
  destruct (truthy (JObj u)); reflexivity.
Qed.

Lemma login_same_users (s1 s2 : Store) (payload : AuthPayload) :
  coll s1 "user" = coll s2 "user" ->
  fst (login (Some s1) payload) = fst (login (Some s2) payload).
Proof. intros H. rewrite !login_find, H. reflexivity. Qed.

(** X1: sign-up never returns and never stores anything.  With a store
    configured the truth test of the handle raises NotImplementedError;
    with none, the user record fails validation when the password has
    fewer than four characters, and otherwise the insertion fails for
    want of a store.  In every case the store is the same afterwards. *)
Theorem signup_never_returns (db : Db) (payload : AuthPayload) :
  snd (signup db payload) = db /\
  exists e,
    fst (signup db payload) = Raise e /\
    (db <> None -> e = NotImplementedError) /\
    (db = None -> (py_len (ap_password payload) < 4)%nat -> e = ValidationError) /\
    (db = None -> (4 <= py_len (ap_password payload))%nat ->
     e = DatabaseNotAvailable).
Proof.
  split; [apply signup_store_unchanged|].
  destruct db as [s|].
  - exists NotImplementedError. rewrite signup_configured_raises.
    repeat split; congruence.
  - rewrite signup_unconfigured.
    destruct (4 <=? py_len (ap_password payload))%nat eqn:Hlen.
    + exists DatabaseNotAvailable. apply Nat.leb_le in Hlen.
      repeat split; intros; try reflexivity; try congruence; lia.
    + exists ValidationError. apply Nat.leb_gt in Hlen.
      repeat split; intros; try reflexivity; try congruence; lia.
Qed.

Lemma signup_never_returns_witness :
  exists e,
    fst (signup (Some store_with_ann) bob_signup) = Raise e /\
    e = NotImplementedError.
Proof.
  destruct (signup_never_returns (Some store_with_ann) bob_signup)
    as (_ & e & He & Hs & _).
  exists e. split; [exact He|]. apply Hs. discriminate.
Defined.







(** X9: the default name [email.split("@")[0]] is the text before the
    first at sign: it never contains an at sign, it is the whole
    e-mail when there is none, and for an e-mail [local@rest] whose
    [local] has no at sign it is [local]. *)
Theorem before_at_first_part (s local rest : string) :
  contains_at (before_at s) = false /\
  (contains_at s = false -> before_at s = s) /\
  (contains_at local = false -> before_at (local ++ String "@" rest) = local).
Proof.
  split; [|split].
  - induction s as [|c s IH]; [reflexivity|].
    cbn. destruct (Ascii.eqb c "@") eqn:Hc; [reflexivity|].
    cbn. rewrite Hc. exact IH.
  - induction s as [|c s IH]; [reflexivity|].
    cbn. destruct (Ascii.eqb c "@"); [discriminate|].
    cbn. intros H. rewrite (IH H). reflexivity.
  - induction local as [|c l IH]; [reflexivity|].
    intros H. change (contains_at (String c l))
      with (Ascii.eqb c "@" || contains_at l) in H.
    change (before_at (String c l ++ String "@" rest))
      with (if Ascii.eqb c "@" then EmptyString
            else String c (before_at (l ++ String "@" rest))).
    destruct (Ascii.eqb c "@"); [discriminate|].
    rewrite (IH H). reflexivity.
Qed.

Lemma before_at_first_part_witness :
  before_at ("bob.smith" ++ String "@" "mail.example.com") = "bob.smith".
Proof.
  apply (before_at_first_part "" "bob.smith" "mail.example.com"). reflexivity.
Defined.

(** ** The diet-plan generator, continued *)

Lemma full_bmi_unfold (libm_pow2 : float -> float) (info : DietRequest) :
  full_bmi libm_pow2 info
  = match PyFloat.pow2 libm_pow2 (height_cm info / 100)%float with
    | Ok sq =>
        if PrimFloat.eqb sq 0%float then Raise ZeroDivisionError
        else Ok (weight_kg info / sq)%float
    | Raise e => Raise e
    end.
Proof.
  unfold full_bmi, PyFloat.truediv.
  change (PrimFloat.eqb 100 0) with false. cbn.
  destruct (PyFloat.pow2 libm_pow2 (height_cm info / 100)); reflexivity.
Qed.

Lemma pow2_raises (libm_pow2 : float -> float) (x : float) (e : Exn) :
  PyFloat.pow2 libm_pow2 x = Raise e ->
  e = OverflowError /\ is_infinity (libm_pow2 (abs x)) = true.
Proof.
  unfold PyFloat.pow2.
  destruct (is_nan x); [discriminate|].
  destruct (is_infinity x); [discriminate|].
  destruct (is_zero x); [discriminate|].
  destruct (PrimFloat.eqb (abs x) 1); [discriminate|].
  destruct (is_infinity (libm_pow2 (abs x))); [|discriminate].
  intros H. injection H as <-. auto.
Qed.

(** X10: the only exceptions the diet-plan handler can raise are
    OverflowError, exactly when squaring the height in metres raises it
    (the C library's square is infinite), and ZeroDivisionError, exactly
    when that square is zero; in every other case it returns a plan. *)
Theorem diet_plan_raises_only
  (libm_pow2 : float -> float) (info : DietRequest) (e : Exn) :
  generate_diet_plan libm_pow2 info = Raise e <->
  (e = OverflowError /\
   PyFloat.pow2 libm_pow2 (height_cm info / 100)%float = Raise OverflowError /\
   is_infinity (libm_pow2 (abs (height_cm info / 100)%float)) = true)
  \/ (e = ZeroDivisionError /\
      exists sq,
        PyFloat.pow2 libm_pow2 (height_cm info / 100)%float = Ok sq /\
        PrimFloat.eqb sq 0%float = true).
Proof.
  split.
  - intros H.
    destruct (full_bmi libm_pow2 info) as [b|e'] eqn:Hb.
    + destruct (generate_diet_plan_returns _ _ _ Hb) as [p Hp]. congruence.
    + rewrite (generate_diet_plan_raises _ _ _ Hb) in H. injection H as <-.
      rewrite full_bmi_unfold in Hb.
      destruct (PyFloat.pow2 libm_pow2 (height_cm info / 100)) as [sq|e2] eqn:Hsq.
      * destruct (PrimFloat.eqb sq 0) eqn:Hz; [|discriminate].
        injection Hb as <-. right. eauto.
      * injection Hb as <-.
        destruct (pow2_raises _ _ _ Hsq) as [-> Hinf]. left. auto.
  - intros [(-> & Hsq & _) | (-> & sq & Hsq & Hz)];
      apply generate_diet_plan_raises; rewrite full_bmi_unfold, Hsq;
      [reflexivity|rewrite Hz; reflexivity].
Qed.

Lemma diet_plan_raises_only_witness :
  exists sq,
    PyFloat.pow2 PyFloat.pow2_rn (height_cm tiny_height_request / 100)%float = Ok sq /\
    PrimFloat.eqb sq 0%float = true.
Proof.
  destruct (proj1 (diet_plan_raises_only PyFloat.pow2_rn tiny_height_request
                     ZeroDivisionError)) as [(H & _) | (_ & H)].
  - vm_compute. reflexivity.
  - discriminate H.
  - exact H.
Defined.

Lemma SFcompare_antisym (x y : spec_float) :
  SFcompare y x = option_map CompOpp (SFcompare x y).
Proof.
  destruct x as [sx|sx| |sx mx ex], y as [sy|sy| |sy my ey]; cbn;
    try reflexivity;
    try (destruct sx; reflexivity); try (destruct sy; reflexivity);
    try (destruct sx, sy; reflexivity).
  destruct sx, sy; try reflexivity;
    rewrite (Z.compare_antisym ex ey); destruct (ex ?= ey)%Z; cbn; try reflexivity;
    change (Pos.compare_cont Eq my mx) with (Pos.compare my mx);
    change (Pos.compare_cont Eq mx my) with (Pos.compare mx my);
    rewrite (Pos.compare_antisym mx my); destruct (mx ?= my)%positive; reflexivity.
Qed.

Lemma SFcompare_refl (x : spec_float) :
  SFcompare x x = if SFis_nan x then None else Some Eq.
Proof.
  destruct x as [s|s| |s m e]; cbn; try reflexivity.
  - destruct s; reflexivity.
  - rewrite Z.compare_refl.
    change (Pos.compare_cont Eq m m) with (Pos.compare m m).
    rewrite Pos.compare_refl. destruct s; reflexivity.
Qed.

Lemma SFcompare_None (x y : spec_float) :
  SFcompare x y = None <-> SFis_nan x = true \/ SFis_nan y = true.
Proof.
  destruct x as [sx|sx| |sx mx ex], y as [sy|sy| |sy my ey]; cbn;
    intuition (try discriminate; auto).
Qed.

Lemma is_nan_Prim2SF (b : float) : is_nan b = SFis_nan (Prim2SF b).
Proof.
  unfold is_nan. rewrite FloatAxioms.eqb_spec. unfold SFeqb. rewrite SFcompare_refl.
  destruct (SFis_nan (Prim2SF b)); reflexivity.
Qed.

(** Below a number [c]: not (above or equal to it), and not NaN. *)
Lemma ltb_leb_nan (b c : float) :
  is_nan c = false ->
  PrimFloat.ltb b c = andb (negb (PrimFloat.leb c b)) (negb (is_nan b)).
Proof.
  rewrite !is_nan_Prim2SF, ltb_spec, leb_spec. unfold SFltb, SFleb.
  rewrite (SFcompare_antisym (Prim2SF b) (Prim2SF c)).
  intros Hc.
  destruct (SFcompare (Prim2SF b) (Prim2SF c)) as [[| |]|] eqn:Hcmp; cbn.
  all: destruct (SFis_nan (Prim2SF b)) eqn:Hb; try reflexivity.
  all: try (assert (Hn : SFcompare (Prim2SF b) (Prim2SF c) = None)
              by (apply SFcompare_None; auto); congruence).
  apply SFcompare_None in Hcmp. destruct Hcmp; congruence.
Qed.

Lemma SFltb_fin_mono (f : spec_float) (m1 m2 : positive) (e : Z) :
  (m1 < m2)%positive ->
  SFltb f (S754_finite false m1 e) = true -> SFltb f (S754_finite false m2 e) = true.
Proof.
  intros Hm. unfold SFltb.
  destruct f as [s|s| |s m e']; cbn; try (destruct s; auto; fail); auto.
  destruct s; auto.
  destruct (e' ?= e)%Z; auto.
  change (Pos.compare_cont Eq m m1) with (Pos.compare m m1).
  change (Pos.compare_cont Eq m m2) with (Pos.compare m m2).
  destruct (m ?= m1)%positive eqn:H1; try discriminate.
  intros _. apply Pos.compare_lt_iff in H1.
  assert (H2 : (m < m2)%positive) by (eapply Pos.lt_trans; eassumption).
  apply Pos.compare_lt_iff in H2. rewrite H2. reflexivity.
Qed.

Lemma ltb_18_5_25 (b : float) :
  PrimFloat.ltb b 18.5%float = true -> PrimFloat.ltb b 25%float = true.
Proof.
  rewrite !ltb_spec.
  change (Prim2SF 18.5) with (S754_finite false 5207287069147136 (-48)).
  change (Prim2SF 25) with (S754_finite false 7036874417766400 (-48)).
  apply SFltb_fin_mono. reflexivity.
Qed.

Lemma ltb_25_30 (b : float) :
  PrimFloat.ltb b 25%float = true -> PrimFloat.ltb b 30%float = true.
Proof.
  rewrite !ltb_spec.
  change (Prim2SF 25) with (S754_finite false 7036874417766400 (-48)).
  change (Prim2SF 30) with (S754_finite false 8444249301319680 (-48)).
  apply SFltb_fin_mono. reflexivity.
Qed.

(** X11: the category is read off the unrounded BMI by intervals that
    are closed on the left: underweight below 18.5, normal from 18.5 up
    to but not including 25, overweight from 25 up to but not including
    30, obese from 30 on; a BMI that is not a number is obese too. *)
Theorem category_of_intervals (b : float) :
  (category_of b = "underweight" <-> PrimFloat.ltb b 18.5%float = true) /\
  (category_of b = "normal"
   <-> PrimFloat.leb 18.5%float b = true /\ PrimFloat.ltb b 25%float = true) /\
  (category_of b = "overweight"
   <-> PrimFloat.leb 25%float b = true /\ PrimFloat.ltb b 30%float = true) /\
  (category_of b = "obese"
   <-> PrimFloat.leb 30%float b = true \/ is_nan b = true).
Proof.
  pose proof (ltb_18_5_25 b) as M1.
  pose proof (ltb_25_30 b) as M2.
  pose proof (ltb_leb_nan b 18.5%float eq_refl) as L1.
  pose proof (ltb_leb_nan b 25%float eq_refl) as L2.
  pose proof (ltb_leb_nan b 30%float eq_refl) as L3.
  unfold category_of.
  destruct (PrimFloat.ltb b 18.5), (PrimFloat.ltb b 25), (PrimFloat.ltb b 30),
    (PrimFloat.leb 18.5 b), (PrimFloat.leb 25 b), (PrimFloat.leb 30 b), (is_nan b);
    cbn in L1, L2, L3; try discriminate;
    try (specialize (M1 eq_refl); discriminate);
    try (specialize (M2 eq_refl); discriminate);
    repeat split; intros; try discriminate; auto;
    repeat match goal with
           | H : _ /\ _ |- _ => destruct H
           | H : _ \/ _ |- _ => destruct H
           end; try discriminate.
Qed.

(** ** Recipe search, continued *)

Lemma summary_closed (v : JVal) :
  summary v = if is_record v then Ok (JObj (normalized (record_of v)))
              else Raise AttributeError.
Proof. destruct v; reflexivity. Qed.

(** The loop in closed form: it succeeds exactly on records. *)
Lemma for_append_summary_closed (xs out : list JVal) :
  for_append summary xs out
  = if forallb is_record xs
    then Ok (out ++ map (fun v => JObj (normalized (record_of v))) xs)
    else Raise AttributeError.
Proof.
  revert out. induction xs as [|x xs IH]; intros out; cbn [for_append forallb map].
  - rewrite app_nil_r. reflexivity.
  - rewrite summary_closed. destruct (is_record x); cbn [andb]; [|reflexivity].
    rewrite IH. destruct (forallb is_record xs); [|reflexivity].
    rewrite <- app_assoc. reflexivity.
Qed.

Lemma dispatch_cases (payload : RecipeSearch) :
  dispatch payload = [] \/ exists c, dispatch payload = [c].
Proof.
  unfold dispatch.
  destruct (query payload) as [[|a q]|], (ingredients payload) as [[|x l]|]; eauto.
Qed.

Lemma search_results_closed (net : Net) (payload : RecipeSearch) (c : Call) :
  dispatch payload = [c] ->
  fst (search_results net payload)
  = match get_meals net c with
    | Ok ms =>
        match py_slice_items ms 12 with
        | Ok items =>
            if forallb is_record items
            then map (fun v => JObj (normalized (record_of v))) items
            else []
        | Raise _ => []
        end
    | Raise _ => []
    end.
Proof.
  intros Hc. rewrite (search_results_of_call _ _ _ Hc).
  destruct (get_meals net c) as [ms|e]; [|reflexivity]. cbn.
  destruct (py_slice_items ms 12) as [items|e]; [|reflexivity]. cbn.
  rewrite for_append_summary_closed.
  destruct (forallb is_record items); reflexivity.
Qed.

Lemma py_slice_items_length (v : JVal) (n : nat) (items : list JVal) :
  py_slice_items v n = Ok items -> (length items <= n)%nat.
Proof.
  destruct v; cbn; intros H; try discriminate; injection H as <-;
    rewrite length_firstn; lia.
Qed.

(** X12: whatever the external service answers, the result list has
    at most twelve entries and each entry is an object with exactly the
    keys id, title, thumbnail, category and area. *)
Theorem results_bounded_and_shaped (net : Net) (payload : RecipeSearch) :
  (length (fst (search_results net payload)) <= 12)%nat /\
  forall v, In v (fst (search_results net payload)) ->
            exists m, v = JObj m /\
                      dom m = ({["id"; "title"; "thumbnail"; "category"; "area"]}
                               : gset string).
Proof.
  destruct (dispatch_cases payload) as [Hd | [c Hd]].
  - rewrite (search_results_no_call _ _ Hd). split; [cbn; lia|intros v []].
  - rewrite (search_results_closed _ _ _ Hd).
    destruct (get_meals net c) as [ms|e]; [|split; [cbn; lia|intros v []]].
    destruct (py_slice_items ms 12) as [items|e] eqn:Hs;
      [|split; [cbn; lia|intros v []]].
    destruct (forallb is_record items); [|split; [cbn; lia|intros v []]].
    split.
    + rewrite length_map. eapply py_slice_items_length, Hs.
    + intros v Hv. apply in_map_iff in Hv as (x & <- & _).
      eexists. split; [reflexivity|]. apply normalized_fields.
Qed.

(** X13: for a body whose meals entry is a list, the results are all
    or nothing: if the first twelve entries are all objects they are all
    summarised, and if one of them is not an object the result list is
    empty; entries after the twelfth are never looked at. *)
Theorem results_all_or_nothing
  (net : Net) (payload : RecipeSearch) (c : Call) (r : HttpResponse)
  (data : Document) (ms : list JVal) :
  snd (search_results net payload) = [c] ->
  net c = Ok r ->
  json_body r = Some (JObj data) ->
  data !! "meals" = Some (JArr ms) ->
  fst (search_results net payload)
  = if forallb is_record (firstn 12 ms)
    then map (fun v => JObj (normalized (record_of v))) (firstn 12 ms)
    else [].
Proof.
  intros Hc Hn Hj Hm. rewrite search_results_calls in Hc.
  rewrite (search_results_closed _ _ _ Hc), (get_meals_list _ _ _ _ _ Hn Hj Hm).
  reflexivity.
Qed.

Lemma results_all_or_nothing_witness :
  fst (search_results
         (fun _ => Ok {| status_code := 200;
                         json_body :=
                           Some (JObj {[ "meals" :=
                                           JArr [JObj teriyaki; JNull] ]}) |})
         chicken_query) = [].
Proof.
  exact (results_all_or_nothing
           (fun _ => Ok {| status_code := 200;
                           json_body :=
                             Some (JObj {[ "meals" :=
                                             JArr [JObj teriyaki; JNull] ]}) |})
           chicken_query (search_call "chicken")
           {| status_code := 200;
              json_body := Some (JObj {[ "meals" := JArr [JObj teriyaki; JNull] ]}) |}
           {[ "meals" := JArr [JObj teriyaki; JNull] ]}
           [JObj teriyaki; JNull] eq_refl eq_refl eq_refl eq_refl).
Defined.

Lemma get_meals_list_inv (net : Net) (c : Call) (ms : list JVal) :
  get_meals net c = Ok (JArr ms) -> ms <> [] ->
  exists r data,
    net c = Ok r /\ json_body r = Some (JObj data) /\
    data !! "meals" = Some (JArr ms).
Proof.
  unfold get_meals, response_json. intros H Hne.
  destruct (net c) as [r|e]; [|discriminate]. cbn in H.
  destruct (json_body r) as [v|] eqn:Hj; [|discriminate]. cbn in H.
  destruct v as [| | | | | |data]; try discriminate. cbn in H.
  exists r, data. split; [reflexivity|]. split; [exact Hj|].
  unfold py_or in H.
  destruct (data !! "meals") as [m|]; cbn in H.
  - destruct (truthy m); injection H as H; congruence.
  - injection H as H. congruence.
Qed.

Lemma sliced_results_nonempty (v : JVal) :
  match py_slice_items v 12 with
  | Ok items =>
      if forallb is_record items
      then map (fun x => JObj (normalized (record_of x))) items
      else []
  | Raise _ => []
  end <> [] ->
  exists ms, v = JArr ms /\ ms <> [] /\ forallb is_record (firstn 12 ms) = true.
Proof.
  destruct v as [| | | |s|ms|]; cbn; try congruence.
  - destruct s as [|a s]; cbn; congruence.
  - destruct (forallb is_record (firstn 12 ms)) eqn:Hf; [|congruence].
    intros H. exists ms. split; [reflexivity|]. split; [|exact Hf].
    intros ->. apply H. reflexivity.
Qed.

(** X14: the result list is non-empty only when a call was made, it
    returned a response whose body decodes to an object, the meals entry
    of that object is a non-empty list, and the first twelve entries of
    the list are all objects; in every other case (an exception, a body
    that is not an object, meals missing, null or not a list, an entry
    that is not an object) the results are empty. *)
Theorem results_nonempty_only_if (net : Net) (payload : RecipeSearch) :
  fst (search_results net payload) <> [] ->
  exists c r data ms,
    snd (search_results net payload) = [c] /\
    net c = Ok r /\
    json_body r = Some (JObj data) /\
    data !! "meals" = Some (JArr ms) /\
    ms <> [] /\
    forallb is_record (firstn 12 ms) = true.
Proof.
  intros Hne. rewrite search_results_calls.
  destruct (dispatch_cases payload) as [Hd | [c Hd]].
  - rewrite (search_results_no_call _ _ Hd) in Hne. congruence.
  - rewrite (search_results_closed _ _ _ Hd) in Hne.
    destruct (get_meals net c) as [v|e] eqn:Hg; [|congruence].
    destruct (sliced_results_nonempty _ Hne) as (ms & -> & Hms & Hall).
    destruct (get_meals_list_inv _ _ _ Hg Hms) as (r & data & Hn & Hj & Hm).
    exists c, r, data, ms. repeat split; assumption.
Qed.

Lemma results_nonempty_only_if_witness :
  exists c r data ms,
    snd (search_results error_status_net chicken_query) = [c] /\
    error_status_net c = Ok r /\
    json_body r = Some (JObj data) /\
    data !! "meals" = Some (JArr ms) /\
    ms <> [] /\
    forallb is_record (firstn 12 ms) = true.
Proof.
  apply (results_nonempty_only_if error_status_net chicken_query).
  vm_compute. discriminate.
Defined.

Lemma recipe_search_store (net : Net) (db : Db) (payload : RecipeSearch) :
  snd (fst (recipe_search net db payload))
  = if persisted payload
    then match db with
         | Some s => Some (snd (insert_record s "recipesearch" (RecipeSearch_doc payload)))
         | None => None
         end
    else db.
Proof.
  unfold recipe_search, persisted.
  destruct (search_results net payload) as [results calls].
  destruct (truthy _); [|reflexivity].
  destruct db as [s|]; reflexivity.
Qed.

(** X15: recording the search does not depend on the external call:
    with user_email present and a store configured, exactly one record,
    the search itself, is appended to the recipesearch collection and
    every other collection is unchanged; without user_email the store is
    not touched. *)
Theorem recipe_search_records_query
  (net : Net) (s : Store) (db : Db) (payload : RecipeSearch) :
  (persisted payload = true ->
   exists s',
     snd (fst (recipe_search net (Some s) payload)) = Some s' /\
     coll s' "recipesearch" = coll s "recipesearch" ++ [RecipeSearch_doc payload] /\
     forall other, other <> "recipesearch" -> coll s' other = coll s other) /\
  (persisted payload = false ->
   snd (fst (recipe_search net db payload)) = db).
Proof.
  split; intros Hp; rewrite recipe_search_store, Hp; [|reflexivity].
  eexists. split; [reflexivity|]. split.
  - apply coll_insert_record_same.
  - intros other Hne. apply coll_insert_record_other, Hne.
Qed.

Lemma recipe_search_records_query_witness :
  exists s',
    snd (fst (recipe_search offline (Some store_with_ann) chicken_query_of_ann))
    = Some s' /\
    coll s' "recipesearch" = [RecipeSearch_doc chicken_query_of_ann].
Proof.
  destruct (proj1 (recipe_search_records_query offline store_with_ann None
                     chicken_query_of_ann) eq_refl) as (s' & Hs & Hc & _).
  exists s'. split; [exact Hs|exact Hc].
Defined.

(** X16: a recipe search never changes what a login gets: the user
    collection is the same before and after it. *)
Theorem recipe_search_keeps_logins
  (net : Net) (db : Db) (payload : RecipeSearch) (p : AuthPayload) :
  users (snd (fst (recipe_search net db payload))) = users db /\
  fst (login (snd (fst (recipe_search net db payload))) p) = fst (login db p).
Proof.
  rewrite recipe_search_store.
  destruct (persisted payload); [|split; reflexivity].
  destruct db as [s|]; [|split; reflexivity].
  assert (Hu : coll (snd (insert_record s "recipesearch" (RecipeSearch_doc payload)))
                 "user" = coll s "user")
    by (apply coll_insert_record_other; discriminate).
  split; [exact Hu|]. apply login_same_users, Hu.
Qed.

(** ** The connectivity report *)

Lemma py_take_len (n : nat) (s : string) :
  (py_len (py_take n s) <= n)%nat.
Proof.
  revert n. induction s as [|c s IH]; intros n; cbn [py_take py_len]; [lia|].
  destruct (is_continuation c) eqn:Hc.
  - cbn [py_len]. rewrite Hc. apply IH.
  - destruct n as [|n]; cbn [py_len]; [lia|].
    rewrite Hc. specialize (IH n). lia.
Qed.

Lemma py_take_prefix (n : nat) (s : string) :
  String.prefix (py_take n s) s = true.
Proof.
  revert n. induction s as [|c s IH]; intros n; cbn [py_take]; [reflexivity|].
  destruct (is_continuation c).
  - cbn. destruct (ascii_dec c c); [apply IH|congruence].
  - destruct n as [|n]; [reflexivity|].
    cbn. destruct (ascii_dec c c); [apply IH|congruence].
Qed.

Lemma py_take_short (n : nat) (s : string) :
  (py_len s <= n)%nat -> py_take n s = s.
Proof.
  revert n. induction s as [|c s IH]; intros n; cbn [py_take py_len]; [reflexivity|].
  destruct (is_continuation c).
  - intros H. rewrite (IH n H). reflexivity.
  - destruct n as [|n]; [lia|].
    intros H. rewrite (IH n) by lia. reflexivity.
Qed.



(** Sixty characters of a longer text are kept, whatever their width
    in bytes. *)
Example py_take_sixty_characters :
  py_take 60 (String.concat EmptyString (List.repeat "é" 70))
  = String.concat EmptyString (List.repeat "é" 60) /\
  py_len (String.concat EmptyString (List.repeat "é" 60)) = 60%nat /\
  String.length (String.concat EmptyString (List.repeat "é" 60)) = 120%nat.
Proof. repeat split; vm_compute; reflexivity. Qed.
